(** * organize: the [dateadded] filter

    A shallow embedding of [organize/filters/date_added.py] (class
    [DateAdded]) and the properties of its temporal-filter contract.

    Conventions of the embedding:
    - a Python [str] is a [string] whose characters are code points below
      256;
    - a POSIX timestamp ([st_mtime], "now") is an integer count of
      microseconds since the epoch, the resolution a pendulum [DateTime]
      keeps;
    - a Python call either returns or raises: type [outcome];
    - a method of [DateAdded] is a function of the object [self] that gives
      an outcome and the object after the call: type [Method]. *)

From Stdlib Require Import ZArith NArith Lia Bool List Ascii String DecimalString.
From stdpp Require Import base option strings gmap.

Local Open Scope string_scope.
Local Open Scope Z_scope.

(** * The program *)

(** ** Python values and control *)

Definition Path := string.

Inductive exn : Type :=
| FileNotFoundError (filename : string)
| CalledProcessError (returncode : Z)
| PermissionError (filename : string)
| AttributeError (msg : string)
| ValueError (msg : string).

Inductive outcome (A : Type) : Type :=
| Return (a : A)
| Raise (e : exn).
Arguments Return {A} a.
Arguments Raise {A} e.

(** [isinstance(e, AttributeError)], the test of an [except AttributeError]
    clause. *)
Definition is_AttributeError (e : exn) : bool :=
  match e with AttributeError _ => true | _ => false end.

(** ** [str.strip] and [str.lower] *)

Module Str.

(** [str.isspace] on one code point below 256: TAB..CR, FS..US, space,
    NEL and NBSP. *)
Definition isspace (c : ascii) : bool :=
  let n := N_of_ascii c in
  (((9 <=? n) && (n <=? 13)) || ((28 <=? n) && (n <=? 32))
   || (n =? 133) || (n =? 160))%N.

Fixpoint lstrip (s : string) : string :=
  match s with
  | "" => ""
  | String c s' => if isspace c then lstrip s' else s
  end.

Fixpoint rstrip (s : string) : string :=
  match s with
  | "" => ""
  | String c s' =>
      match rstrip s' with
      | "" => if isspace c then "" else String c ""
      | r => String c r
      end
  end.

Definition strip (s : string) : string := rstrip (lstrip s).

(** Lower-casing of one code point below 256: A..Z and the Latin-1 capitals
    (all of 192..222 but the multiplication sign 215) move up by 32. *)
Definition lower_char (c : ascii) : ascii :=
  let n := N_of_ascii c in
  if (((65 <=? n) && (n <=? 90))
      || ((192 <=? n) && (n <=? 222) && negb (n =? 215)))%N
  then ascii_of_N (n + 32) else c.

Fixpoint lower (s : string) : string :=
  match s with
  | "" => ""
  | String c s' => String (lower_char c) (lower s')
  end.

(** Truth value of a [str]: non-empty. *)
Definition truthy (s : string) : bool :=
  match s with "" => false | _ => true end.

End Str.

(** ** The pendulum library, as far as the filter uses it *)

Module pendulum.

(** Modelled from the spec: pendulum is a third-party library and not under
    src/. A timezone is "a timezone identifier or offset"; the model keeps
    the offset from UTC, in seconds. *)
Record Timezone : Type := FixedTimezone { utcoffset : Z }.

(** Modelled from the spec: pendulum's [Duration] is not under src/. "A
    calendar-aware span with components {years, months, weeks, days, hours,
    minutes, seconds}"; the components are whole numbers here, negative
    ones are accepted. *)
Record Duration : Type := mkDuration {
  years : Z; months : Z; weeks : Z; days : Z;
  hours : Z; minutes : Z; seconds : Z
}.

Definition duration (years months weeks days hours minutes seconds : Z)
  : Duration :=
  mkDuration years months weeks days hours minutes seconds.

(** The null duration: every component is exactly zero. *)
Definition null_duration : Duration := duration 0 0 0 0 0 0 0.

Definition is_null (d : Duration) : bool :=
  (years d =? 0) && (months d =? 0) && (weeks d =? 0) && (days d =? 0)
  && (hours d =? 0) && (minutes d =? 0) && (seconds d =? 0).

Definition string_of_Z (n : Z) : string :=
  NilZero.string_of_int (Z.to_int n).

Definition unit_words (count : Z) (unit : string) : list string :=
  if count =? 0 then []
  else [string_of_Z count +:+ " " +:+ unit
        +:+ (if Z.abs count =? 1 then "" else "s")].

(** Modelled from the spec: [Duration.in_words] is not under src/. The
    filter reads it as a truth value, which tells the null duration (no
    words) from every other one: one part per non-zero component. *)
Definition in_words (d : Duration) : string :=
  String.concat " "
    (unit_words (years d) "year" ++ unit_words (months d) "month"
     ++ unit_words (weeks d) "week" ++ unit_words (days d) "day"
     ++ unit_words (hours d) "hour" ++ unit_words (minutes d) "minute"
     ++ unit_words (seconds d) "second").

(** Modelled from the spec: pendulum's [DateTime] is not under src/. "A
    timestamp with an associated timezone" that exposes year, month, day,
    hour, minute and second. The fields are the wall-clock reading in the
    zone [tzinfo]. *)
Record DateTime : Type := mkDateTime {
  year : Z; month : Z; day : Z;
  hour : Z; minute : Z; second : Z; microsecond : Z;
  tzinfo : Timezone
}.

(** *** The proleptic Gregorian calendar *)

Definition is_leap (y : Z) : bool :=
  (y mod 4 =? 0) && (negb (y mod 100 =? 0) || (y mod 400 =? 0)).

Definition days_in_month (y m : Z) : Z :=
  if m =? 2 then (if is_leap y then 29 else 28)
  else if (m =? 4) || (m =? 6) || (m =? 9) || (m =? 11) then 30
  else 31.

(** Days from 1970-01-01 to the civil date [y-m-d]; years run from March
    inside 400-year eras. *)
Definition days_from_civil (y m d : Z) : Z :=
  let y' := if m <=? 2 then y - 1 else y in
  let era := y' / 400 in
  let yoe := y' - era * 400 in
  let mp := (m + 9) mod 12 in
  let doy := (153 * mp + 2) / 5 + d - 1 in
  let doe := yoe * 365 + yoe / 4 - yoe / 100 + doy in
  era * 146097 + doe - 719468.

Definition civil_from_days (z : Z) : Z * Z * Z :=
  let z' := z + 719468 in
  let era := z' / 146097 in
  let doe := z' - era * 146097 in
  let yoe := (doe - doe / 1460 + doe / 36524 - doe / 146096) / 365 in
  let doy := doe - (365 * yoe + yoe / 4 - yoe / 100) in
  let mp := (5 * doy + 2) / 153 in
  let d := doy - (153 * mp + 2) / 5 + 1 in
  let m := if mp <? 10 then mp + 3 else mp - 9 in
  (yoe + era * 400 + (if m <=? 2 then 1 else 0), m, d).

Definition US_PER_SECOND : Z := 1000000.
Definition US_PER_DAY : Z := 86400 * US_PER_SECOND.

(** The [DateTime] whose wall clock reads [local] microseconds after
    1970-01-01T00:00:00 in the zone [tz]. *)
Definition of_local (local : Z) (tz : Timezone) : DateTime :=
  let '(y, m, d) := civil_from_days (local / US_PER_DAY) in
  let r := local mod US_PER_DAY in
  let s := r / US_PER_SECOND in
  mkDateTime y m d (s / 3600) (s mod 3600 / 60) (s mod 60)
             (r mod US_PER_SECOND) tz.

(** The wall-clock reading of a [DateTime], in microseconds after
    1970-01-01T00:00:00 of its own zone. *)
Definition local_microseconds (dt : DateTime) : Z :=
  (days_from_civil (year dt) (month dt) (day dt) * 86400
   + hour dt * 3600 + minute dt * 60 + second dt) * US_PER_SECOND
  + microsecond dt.

(** Modelled from the spec: [pendulum.from_timestamp(ts, tz)], "a
    timezone-aware timestamp, localized to the supplied timezone". *)
Definition from_timestamp (ts : Z) (tz : Timezone) : DateTime :=
  of_local (ts + utcoffset tz * US_PER_SECOND) tz.

(** The instant a [DateTime] denotes, in microseconds since the epoch. *)
Definition timestamp (dt : DateTime) : Z :=
  local_microseconds dt - utcoffset (tzinfo dt) * US_PER_SECOND.

(** The calendar step of an addition: move by whole years and months, then
    clamp the day to the length of the month reached. *)
Definition add_years_months (dt : DateTime) (ys ms : Z) : DateTime :=
  let total := month dt - 1 + ms in
  let y := year dt + ys + total / 12 in
  let m := total mod 12 + 1 in
  mkDateTime y m (Z.min (days_in_month y m) (day dt))
             (hour dt) (minute dt) (second dt) (microsecond dt) (tzinfo dt).

(** The fixed-length part of a duration, in microseconds. *)
Definition fixed_microseconds (d : Duration) : Z :=
  (((weeks d * 7 + days d) * 24 + hours d) * 60 + minutes d) * 60
  * US_PER_SECOND + seconds d * US_PER_SECOND.

(** Modelled from the spec: [DateTime.__add__] with a [Duration] is not
    under src/. "Calendar-aware addition: adding 1 month must honor
    variable month lengths; adding 1 year must honor leap years"; weeks,
    days, hours, minutes and seconds have a fixed length. *)
Definition add (dt : DateTime) (d : Duration) : DateTime :=
  let dt' := add_years_months dt (years d) (months d) in
  from_timestamp (timestamp dt' + fixed_microseconds d) (tzinfo dt).

(** Modelled from the spec: [DateTime.is_past()], "in the past relative to
    now": strictly before the current instant [now]. *)
Definition is_past (dt : DateTime) (now : Z) : bool :=
  timestamp dt <? now.

End pendulum.

(** ** The world a call runs in *)

(** [os.stat_result], of which the filter reads [st_mtime]. *)
Record stat_result : Type := mk_stat { st_mtime : Z }.

(** The state outside the program that one evaluation observes: the files
    that exist with their metadata, what running a command gives
    ([run argv] is the captured standard output, or the exception that
    [subprocess.check_output] raises: [FileNotFoundError] when the
    executable does not exist, [CalledProcessError] on a non-zero exit),
    and the clock. An evaluation reads the world and never writes it. *)
Record World : Type := mkWorld {
  files : gmap Path stat_result;
  run : list string → outcome string;
  clock : Z
}.

Module pathlib.
(** [Path.stat()]. *)
Definition stat (w : World) (p : Path) : outcome stat_result :=
  match files w !! p with
  | Some st => Return st
  | None => Raise (FileNotFoundError p)
  end.
End pathlib.

Module subprocess.
Definition check_output (w : World) (argv : list string) : outcome string :=
  run w argv.
End subprocess.

(** ** The filter object and its methods *)

Record DateAdded : Type := mkDateAdded {
  _mode : string;
  is_older : bool;
  timezone : pendulum.Timezone;
  timedelta : pendulum.Duration
}.

(** [organize.utils.DotDict], of which the filter reads [path]. *)
Record DotDict : Type := mkArgs { path : Path }.

(** A method body: from the object before the call to the outcome and the
    object after it. An exception keeps the writes made before it. *)
Definition Method (A : Type) : Type := DateAdded → outcome A * DateAdded.

#[export] Instance Method_ret : MRet Method :=
  λ A (a : A) self, (Return a, self).

#[export] Instance Method_bind : MBind Method :=
  λ A B (k : A → Method B) (m : Method A) self,
    match m self with
    | (Return a, self') => k a self'
    | (Raise e, self') => (Raise e, self')
    end.

(** Read an attribute of [self]. *)
Definition attr {A : Type} (field : DateAdded → A) : Method A :=
  λ self, (Return (field self), self).

(** A call into the world: its outcome, [self] untouched. *)
Definition call {A : Type} (o : outcome A) : Method A :=
  λ self, (o, self).

(** [try: body  except AttributeError: handler]. *)
Definition try_except_AttributeError {A : Type} (body handler : Method A)
  : Method A :=
  λ self,
    match body self with
    | (Raise e, self') =>
        if is_AttributeError e then handler self' else (Raise e, self')
    | r => r
    end.

(** What the local variable [time] of [_date_added] holds: the bytes that
    [mdls] printed, or a timestamp. *)
Inductive time_value : Type :=
| Bytes (b : string)
| Float (t : Z).

(** [DateAdded.__init__]. *)
Definition __init__ (years months weeks days hours minutes seconds : Z)
    (mode : string) (timezone : pendulum.Timezone) : outcome DateAdded :=
  let _mode := Str.lower (Str.strip mode) in
  if negb (bool_decide (_mode ∈ ["older"; "newer"])) then
    Raise (ValueError "Unknown option for 'mode': must be 'older' or 'newer'.")
  else
    Return
      {| _mode := _mode;
         is_older := bool_decide (_mode = "older");
         timezone := timezone;
         timedelta :=
           pendulum.duration years months weeks days hours minutes seconds |}.

(** [DateAdded._date_added]. The source indents its [except] clause one
    level deeper than its [try]; it is read as the handler of that [try],
    which is what the comment inside it describes. *)
Definition _date_added (w : World) (path : Path) : Method pendulum.DateTime :=
  stat ← call (pathlib.stat w path);
  time ← try_except_AttributeError
            (out ← call (subprocess.check_output w
                           ["mdls"; "-name"; "kMDItemDateAdded"; "-raw"; path]);
             mret (Bytes out))
            (* This will only work on Mac, so otherwise return last
               modified date *)
            (mret (Float (st_mtime stat)));
  stat' ← call (pathlib.stat w path);
  tz ← attr timezone;
  mret (pendulum.from_timestamp (st_mtime stat') tz).

(** [DateAdded.pipeline]. *)
Definition pipeline (w : World) (args : DotDict)
  : Method (option (gmap string pendulum.DateTime)) :=
  file_added ← _date_added w (path args);
  words ← attr (λ self, pendulum.in_words (timedelta self));
  match_ ←
    (if Str.truthy words then
       delta ← attr timedelta;
       let is_past := pendulum.is_past (pendulum.add file_added delta) (clock w) in
       older ← attr is_older;
       mret (eqb older is_past)
     else mret true);
  if match_ : bool then mret (Some {[ "dateadded" := file_added ]})
  else mret None.

(** ** Reading results *)

Definition Payload : Type := gmap string pendulum.DateTime.

(** The evaluation returned a match payload. *)
Definition is_match (o : outcome (option Payload)) : bool :=
  match o with Return (Some _) => true | _ => false end.

(** The two directions of the filter. *)
Inductive Direction : Type := OLDER | NEWER.

Definition direction (f : DateAdded) : Direction :=
  if is_older f then OLDER else NEWER.

Definition utc : pendulum.Timezone := pendulum.FixedTimezone 0.

(** The command line of the native "date added" query. *)
Definition mdls_argv (path : Path) : list string :=
  ["mdls"; "-name"; "kMDItemDateAdded"; "-raw"; path].

(** The decision of [pipeline] once the instant [t] is resolved. *)
Definition decision (self : DateAdded) (t : pendulum.DateTime) (now : Z)
  : bool :=
  if Str.truthy (pendulum.in_words (timedelta self))
  then eqb (is_older self)
           (pendulum.is_past (pendulum.add t (timedelta self)) now)
  else true.

(** A string of whitespace only. *)
Fixpoint all_space (s : string) : bool :=
  match s with
  | "" => true
  | String c s' => Str.isspace c && all_space s'
  end.

(** ** Worlds used in the examples *)

Definition report : Path := "/home/me/Desktop/report.pdf".

(** 2023-11-14 22:13:20 UTC. *)
Definition report_mtime : Z := 1700000000000000.

(** A machine with [mdls]: the query prints [out]. *)
Definition mac_world (out : string) (now : Z) : World :=
  mkWorld {[ report := mk_stat report_mtime ]} (λ _, Return out) now.

(** A machine without [mdls]: starting it raises [FileNotFoundError]. *)
Definition linux_world (now : Z) : World :=
  mkWorld {[ report := mk_stat report_mtime ]}
          (λ _, Raise (FileNotFoundError "mdls")) now.

(** A machine whose [mdls] exits with status 1. *)
Definition failing_mdls_world (now : Z) : World :=
  mkWorld {[ report := mk_stat report_mtime ]}
          (λ _, Raise (CalledProcessError 1)) now.

(** 2024-02-29 00:00:00 UTC, and a machine with a file last modified
    then. *)
Definition leap_mtime : Z := 1709164800000000.

Definition leap_world (now : Z) : World :=
  mkWorld {[ report := mk_stat leap_mtime ]} (λ _, Return "(null)") now.

(** [DateAdded(years=1)]. *)
Definition one_year_older : DateAdded :=
  mkDateAdded "older" true utc (pendulum.duration 1 0 0 0 0 0 0).

(** [DateAdded(days=10)] and [DateAdded(days=10, mode="newer")]. *)
Definition ten_days_older : DateAdded :=
  mkDateAdded "older" true utc (pendulum.duration 0 0 0 10 0 0 0).

Definition ten_days_newer : DateAdded :=
  mkDateAdded "newer" false utc (pendulum.duration 0 0 0 10 0 0 0).

(** [DateAdded(hours=5, mode="newer")]. *)
Definition five_hours_newer : DateAdded :=
  mkDateAdded "newer" false utc (pendulum.duration 0 0 0 0 5 0 0).

Definition HOUR : Z := 3600 * pendulum.US_PER_SECOND.

(** The report and a second file of the same age. *)
Definition notes : Path := "/home/me/Desktop/notes.txt".

Definition two_files_world (now : Z) : World :=
  mkWorld {[ report := mk_stat report_mtime; notes := mk_stat report_mtime ]}
          (λ _, Return "(null)") now.

(** No file at all. *)
Definition empty_world (now : Z) : World :=
  mkWorld ∅ (λ _, Return "(null)") now.

(** ** Calendar dates and their check over one era *)

(** [y-m-d] is a date of the calendar. *)
Definition valid_date (y m d : Z) : bool :=
  (1 <=? m) && (m <=? 12) && (1 <=? d) && (d <=? pendulum.days_in_month y m).

(** A [DateTime] whose fields are a date of the calendar and a time of
    day. *)
Definition valid (dt : pendulum.DateTime) : bool :=
  valid_date (pendulum.year dt) (pendulum.month dt) (pendulum.day dt)
  && (0 <=? pendulum.hour dt) && (pendulum.hour dt <? 24)
  && (0 <=? pendulum.minute dt) && (pendulum.minute dt <? 60)
  && (0 <=? pendulum.second dt) && (pendulum.second dt <? 60)
  && (0 <=? pendulum.microsecond dt)
  && (pendulum.microsecond dt <? pendulum.US_PER_SECOND).

(** Day [doe] of the era that starts on 0000-03-01: its civil date is a
    date of the calendar and has [doe] for its day number. *)
Definition day_check (doe : Z) : bool :=
  let '(y, m, d) := pendulum.civil_from_days (doe - 719468) in
  (pendulum.days_from_civil y m d =? doe - 719468) && valid_date y m d.

(** [f] holds of the [n] integers from [from] on. *)
Fixpoint forall_from (n : nat) (from : Z) (f : Z → bool) : bool :=
  match n with
  | O => true
  | S n' => f from && forall_from n' (from + 1) f
  end.

(** ** [str % tuple] and [__str__] *)




(** ** Further examples *)

(** [DateAdded(days=10, timezone=UTC+1)]. *)
Definition ten_days_older_cet : DateAdded :=
  mkDateAdded "older" true (pendulum.FixedTimezone 3600)
              (pendulum.duration 0 0 0 10 0 0 0).


(** [DateAdded(months=1)] in UTC and in UTC+1. *)
Definition one_month_older : DateAdded :=
  mkDateAdded "older" true utc (pendulum.duration 0 1 0 0 0 0 0).

Definition one_month_older_cet : DateAdded :=
  mkDateAdded "older" true (pendulum.FixedTimezone 3600)
              (pendulum.duration 0 1 0 0 0 0 0).

(** A file last modified on 2024-01-30 23:30:00 UTC. *)
Definition late_january_world (now : Z) : World :=
  mkWorld {[ report := mk_stat 1706657400000000 ]} (λ _, Return "(null)") now.

(** * Properties *)

(** ** The resolver, case by case *)

Section Resolver.
Variables (w : World) (p : Path) (self : DateAdded).

Lemma _date_added_missing :
  files w !! p = None →
  _date_added w p self = (Raise (FileNotFoundError p), self).
Proof.
  intros Hp. unfold _date_added, mbind, Method_bind, call, pathlib.stat.
  now rewrite Hp.
Qed.

Lemma _date_added_output st out :
  files w !! p = Some st →
  run w (mdls_argv p) = Return out →
  _date_added w p self
  = (Return (pendulum.from_timestamp (st_mtime st) (timezone self)), self).
Proof.
  intros Hp Hrun.
  unfold _date_added, mbind, Method_bind, call, pathlib.stat,
    try_except_AttributeError, subprocess.check_output, attr, mret,
    Method_ret.
  fold (mdls_argv p). now rewrite Hp, Hrun.
Qed.

Lemma _date_added_raised st e :
  files w !! p = Some st →
  run w (mdls_argv p) = Raise e →
  _date_added w p self
  = if is_AttributeError e
    then (Return (pendulum.from_timestamp (st_mtime st) (timezone self)), self)
    else (Raise e, self).
Proof.
  intros Hp Hrun.
  unfold _date_added, mbind, Method_bind, call, pathlib.stat,
    try_except_AttributeError, subprocess.check_output, attr, mret,
    Method_ret.
  fold (mdls_argv p). rewrite Hp, Hrun.
  destruct (is_AttributeError e); simpl; now rewrite ?Hp.
Qed.

(** The resolver never writes to [self]. *)
Lemma _date_added_frame : snd (_date_added w p self) = self.
Proof.
  destruct (files w !! p) as [st|] eqn:Hp.
  - destruct (run w (mdls_argv p)) as [out|e] eqn:Hrun.
    + now rewrite (_date_added_output st out).
    + rewrite (_date_added_raised st e) by assumption.
      now destruct (is_AttributeError e).
  - now rewrite _date_added_missing.
Qed.

(** Whatever the resolver returns is the last-modified instant. *)
Lemma _date_added_returns t :
  fst (_date_added w p self) = Return t →
  ∃ st, files w !! p = Some st
        ∧ t = pendulum.from_timestamp (st_mtime st) (timezone self).
Proof.
  destruct (files w !! p) as [st|] eqn:Hp.
  - intros Ht. exists st. split; [reflexivity|].
    destruct (run w (mdls_argv p)) as [out|e] eqn:Hrun.
    + rewrite (_date_added_output st out) in Ht by assumption.
      simpl in Ht. congruence.
    + rewrite (_date_added_raised st e) in Ht by assumption.
      destruct (is_AttributeError e); simpl in Ht; congruence.
  - rewrite _date_added_missing by assumption. discriminate.
Qed.
End Resolver.

(** ** Words of a duration *)

Section Words.
Import pendulum.

Lemma append_space_nonempty (a b : string) : a +:+ " " +:+ b ≠ "".
Proof. destruct a; discriminate. Qed.

Lemma unit_words_zero (u : string) : unit_words 0 u = [].
Proof. reflexivity. Qed.

Lemma unit_words_nonzero (c : Z) (u : string) :
  c ≠ 0 → ∃ x, x ≠ "" ∧ unit_words c u = [x].
Proof.
  intros Hc. unfold unit_words.
  destruct (Z.eqb_spec c 0) as [|_]; [contradiction|].
  eexists. split; [|reflexivity]. apply append_space_nonempty.
Qed.

Lemma concat_cons_nonempty (sep x : string) (l : list string) :
  x ≠ "" → String.concat sep (x :: l) ≠ "".
Proof.
  intros Hx. simpl. destruct l; [assumption|].
  destruct x; [contradiction|discriminate].
Qed.

(** No words exactly for the null duration. *)
Lemma in_words_empty_iff (d : Duration) :
  in_words d = "" ↔ d = null_duration.
Proof.
  split.
  - destruct d as [y mo wk dy h mi sc]. unfold in_words. simpl.
    intros H.
    assert (Hz : ∀ c u l,
               String.concat " " (unit_words c u ++ l) = "" → c = 0).
    { intros c u l Hl. destruct (Z.eq_dec c 0) as [|Hc]; [assumption|].
      destruct (unit_words_nonzero c u Hc) as (x & Hx & Hu).
      rewrite Hu in Hl. now apply concat_cons_nonempty in Hl. }
    pose proof (Hz _ _ _ H) as ->. rewrite unit_words_zero in H. simpl in H.
    pose proof (Hz _ _ _ H) as ->. rewrite unit_words_zero in H. simpl in H.
    pose proof (Hz _ _ _ H) as ->. rewrite unit_words_zero in H. simpl in H.
    pose proof (Hz _ _ _ H) as ->. rewrite unit_words_zero in H. simpl in H.
    pose proof (Hz _ _ _ H) as ->. rewrite unit_words_zero in H. simpl in H.
    pose proof (Hz _ _ _ H) as ->. rewrite unit_words_zero in H. simpl in H.
    rewrite <- (app_nil_r (unit_words sc "second")) in H.
    pose proof (Hz _ _ _ H) as ->. reflexivity.
  - now intros ->.
Qed.

Lemma is_null_iff (d : Duration) :
  is_null d = true ↔ d = null_duration.
Proof.
  split.
  - destruct d as [y mo wk dy h mi sc]. unfold is_null. simpl.
    rewrite !andb_true_iff, !Z.eqb_eq.
    intros [[[[[[-> ->] ->] ->] ->] ->] ->]. reflexivity.
  - now intros ->.
Qed.

Lemma truthy_in_words (d : Duration) :
  Str.truthy (in_words d) = negb (is_null d).
Proof.
  destruct (is_null d) eqn:Hd.
  - apply is_null_iff in Hd. now rewrite Hd.
  - destruct (in_words d) eqn:Hw; [|reflexivity].
    apply in_words_empty_iff, is_null_iff in Hw. congruence.
Qed.
End Words.

(** ** The evaluation, case by case *)

Section Pipeline.
Variables (w : World) (args : DotDict) (self : DateAdded).

Lemma pipeline_returned t :
  fst (_date_added w (path args) self) = Return t →
  pipeline w args self
  = (Return (if decision self t (clock w)
             then Some {[ "dateadded" := t ]} else None), self).
Proof.
  intros Ht. pose proof (_date_added_frame w (path args) self) as Hs.
  unfold pipeline, decision, mbind, Method_bind, attr, mret, Method_ret.
  destruct (_date_added w (path args) self) as [o s]. simpl in Ht, Hs.
  subst o s.
  destruct (Str.truthy _); [|reflexivity].
  now destruct (eqb _ _).
Qed.

Lemma pipeline_raised e :
  fst (_date_added w (path args) self) = Raise e →
  pipeline w args self = (Raise e, self).
Proof.
  intros He. pose proof (_date_added_frame w (path args) self) as Hs.
  unfold pipeline, mbind, Method_bind.
  destruct (_date_added w (path args) self) as [o s]. simpl in He, Hs.
  now subst o s.
Qed.
End Pipeline.

(** ** The resolver *)

(** C1, as the code behaves: on a machine where the native query succeeds,
    [_date_added] returns the instant of the last-modified time whatever
    the query printed; the native "date added" value never reaches the
    result. For a file modified on 2023-11-14 whose native attribute reads
    2020-01-01, the resolved year is 2023. *)
Theorem C1_native_date_added_is_discarded (out : string) (now : Z)
    (self : DateAdded) :
  fst (_date_added (mac_world out now) report self)
  = Return (pendulum.from_timestamp report_mtime (timezone self))
  ∧ fst (_date_added (mac_world "2020-01-01 00:00:00 +0000" now) report self)
    = fst (_date_added (mac_world out now) report self)
  ∧ pendulum.from_timestamp report_mtime utc
    = pendulum.mkDateTime 2023 11 14 22 13 20 0 utc.
Proof.
  assert (H : ∀ o, fst (_date_added (mac_world o now) report self)
                   = Return (pendulum.from_timestamp report_mtime
                                                     (timezone self))).
  { intros o.
    rewrite (_date_added_output _ _ _ (mk_stat report_mtime) o);
      [reflexivity | apply lookup_singleton_eq | reflexivity]. }
  split; [apply H|]. split; [now rewrite !H|]. reflexivity.
Qed.

(** The fallback as the code has it: an [AttributeError] out of the query
    is caught and the last-modified instant is returned. *)
Lemma _date_added_fallback (w : World) (p : Path) (self : DateAdded)
    (st : stat_result) (msg : string) :
  files w !! p = Some st →
  run w (mdls_argv p) = Raise (AttributeError msg) →
  _date_added w p self
  = (Return (pendulum.from_timestamp (st_mtime st) (timezone self)), self).
Proof. intros Hp Hrun. now rewrite (_date_added_raised w p self st _ Hp Hrun). Qed.

(** An exception of the query other than [AttributeError] leaves the
    resolver, and [pipeline], uncaught. *)
Lemma _date_added_uncaught (w : World) (p : Path) (self : DateAdded)
    (st : stat_result) (e : exn) :
  files w !! p = Some st →
  run w (mdls_argv p) = Raise e →
  is_AttributeError e = false →
  _date_added w p self = (Raise e, self).
Proof.
  intros Hp Hrun He.
  now rewrite (_date_added_raised w p self st e Hp Hrun), He.
Qed.

Lemma pipeline_uncaught (w : World) (args : DotDict) (self : DateAdded)
    (st : stat_result) (e : exn) :
  files w !! path args = Some st →
  run w (mdls_argv (path args)) = Raise e →
  is_AttributeError e = false →
  pipeline w args self = (Raise e, self).
Proof.
  intros Hp Hrun He. apply pipeline_raised.
  now rewrite (_date_added_uncaught w (path args) self st e).
Qed.

Lemma report_exists (r : list string → outcome string) (now : Z) :
  files (mkWorld {[ report := mk_stat report_mtime ]} r now) !! report
  = Some (mk_stat report_mtime).
Proof. apply lookup_singleton_eq. Qed.

(** C2, as the code behaves: [except AttributeError] does not catch what a
    failing query raises. Where [mdls] does not exist the resolver raises
    [FileNotFoundError] for the executable, where [mdls] exits with a
    non-zero status it raises [CalledProcessError], and [pipeline] passes
    the exception on: the evaluation of an existing path is aborted. *)
Theorem C2_query_failure_is_not_caught (now : Z) (self : DateAdded) :
  files (linux_world now) !! report = Some (mk_stat report_mtime)
  ∧ _date_added (linux_world now) report self
    = (Raise (FileNotFoundError "mdls"), self)
  ∧ _date_added (failing_mdls_world now) report self
    = (Raise (CalledProcessError 1), self)
  ∧ pipeline (linux_world now) (mkArgs report) self
    = (Raise (FileNotFoundError "mdls"), self).
Proof.
  split; [apply report_exists|].
  split; [|split].
  - apply (_date_added_uncaught _ _ _ (mk_stat report_mtime));
      [apply report_exists | reflexivity | reflexivity].
  - apply (_date_added_uncaught _ _ _ (mk_stat report_mtime));
      [apply report_exists | reflexivity | reflexivity].
  - apply (pipeline_uncaught _ _ _ (mk_stat report_mtime));
      [apply report_exists | reflexivity | reflexivity].
Qed.

(** ** The evaluation *)

(** A path that does not exist: the [FileNotFoundError] of [Path.stat]
    reaches the caller of [pipeline]. *)
Lemma pipeline_missing_path (w : World) (args : DotDict) (self : DateAdded) :
  files w !! path args = None →
  pipeline w args self = (Raise (FileNotFoundError (path args)), self).
Proof.
  intros Hp. apply pipeline_raised.
  now rewrite _date_added_missing.
Qed.

(** The null-duration branch: once the instant is resolved, the filter
    matches in either direction. *)
Lemma pipeline_null_duration (w : World) (args : DotDict) (self : DateAdded)
    (t : pendulum.DateTime) :
  timedelta self = pendulum.null_duration →
  fst (_date_added w (path args) self) = Return t →
  pipeline w args self = (Return (Some {[ "dateadded" := t ]}), self).
Proof.
  intros Hd Ht. rewrite (pipeline_returned w args self t Ht).
  unfold decision. now rewrite Hd.
Qed.

(** With the null duration the no-match sentinel is never returned. *)
Lemma pipeline_null_duration_not_None (w : World) (args : DotDict)
    (self : DateAdded) :
  timedelta self = pendulum.null_duration →
  fst (pipeline w args self) ≠ Return None.
Proof.
  intros Hd.
  destruct (fst (_date_added w (path args) self)) as [t|e] eqn:Ht.
  - now rewrite (pipeline_null_duration w args self t Hd Ht).
  - now rewrite (pipeline_raised w args self e Ht).
Qed.

(** C3, as the code behaves: on a machine without [mdls] a filter built
    with all seven components zero, in either mode, does not return a match
    payload for an existing path: [pipeline] raises the
    [FileNotFoundError] of the query. *)
Theorem C3_null_duration_raises_without_mdls (now : Z)
    (tz : pendulum.Timezone) :
  files (linux_world now) !! report = Some (mk_stat report_mtime)
  ∧ ∃ older newer : DateAdded,
      __init__ 0 0 0 0 0 0 0 "older" tz = Return older
      ∧ __init__ 0 0 0 0 0 0 0 "newer" tz = Return newer
      ∧ fst (pipeline (linux_world now) (mkArgs report) older)
        = Raise (FileNotFoundError "mdls")
      ∧ fst (pipeline (linux_world now) (mkArgs report) newer)
        = Raise (FileNotFoundError "mdls")
      ∧ is_match (fst (pipeline (linux_world now) (mkArgs report) older))
        = false
      ∧ is_match (fst (pipeline (linux_world now) (mkArgs report) newer))
        = false.
Proof.
  split; [apply report_exists|].
  eexists _, _. split; [reflexivity|]. split; [reflexivity|].
  assert (H : ∀ self, pipeline (linux_world now) (mkArgs report) self
                      = (Raise (FileNotFoundError "mdls"), self)).
  { intros self. apply (pipeline_uncaught _ _ _ (mk_stat report_mtime));
      [apply report_exists | reflexivity | reflexivity]. }
  rewrite !H. now repeat split.
Qed.

(** C7, as the code behaves: a missing path makes [pipeline] raise the
    [FileNotFoundError] of [Path.stat], but that is not the only failure:
    for an existing path whose native query exits with status 1,
    [pipeline] raises [CalledProcessError]. *)
Theorem C7_existing_path_can_still_fail (now : Z) (self : DateAdded) :
  pipeline (empty_world now) (mkArgs report) self
  = (Raise (FileNotFoundError report), self)
  ∧ files (failing_mdls_world now) !! report = Some (mk_stat report_mtime)
  ∧ pipeline (failing_mdls_world now) (mkArgs report) self
    = (Raise (CalledProcessError 1), self).
Proof.
  split; [now apply pipeline_missing_path|].
  split; [apply report_exists|].
  apply (pipeline_uncaught _ _ _ (mk_stat report_mtime));
    [apply report_exists | reflexivity | reflexivity].
Qed.

(** ** Construction *)

(** What a successful construction stores. *)
Lemma __init___fields (y mo wk dy h mi sc : Z) (mode : string)
    (tz : pendulum.Timezone) (f : DateAdded) :
  __init__ y mo wk dy h mi sc mode tz = Return f →
  _mode f = Str.lower (Str.strip mode)
  ∧ is_older f = bool_decide (Str.lower (Str.strip mode) = "older")
  ∧ timezone f = tz
  ∧ timedelta f = pendulum.duration y mo wk dy h mi sc.
Proof.
  unfold __init__. destruct (negb _); [discriminate|].
  intros [= <-]. now repeat split.
Qed.

(** C6: with [m] the mode after [strip] and [lower], construction returns
    a filter exactly when [m] is "older" or "newer", and then its direction
    is OLDER or NEWER accordingly; for every other string it raises the
    [ValueError] of the configuration and returns no filter. *)
Theorem C6_mode_is_normalised_or_rejected (y mo wk dy h mi sc : Z)
    (mode : string) (tz : pendulum.Timezone) :
  match __init__ y mo wk dy h mi sc mode tz with
  | Return f =>
      (Str.lower (Str.strip mode) = "older" ∧ direction f = OLDER
       ∨ Str.lower (Str.strip mode) = "newer" ∧ direction f = NEWER)
      ∧ _mode f = Str.lower (Str.strip mode)
      ∧ timezone f = tz
      ∧ timedelta f = pendulum.duration y mo wk dy h mi sc
  | Raise e =>
      Str.lower (Str.strip mode) ≠ "older"
      ∧ Str.lower (Str.strip mode) ≠ "newer"
      ∧ e = ValueError "Unknown option for 'mode': must be 'older' or 'newer'."
  end.
Proof.
  unfold __init__, direction.
  destruct (bool_decide _) eqn:Hin; cbn [negb].
  - apply bool_decide_eq_true_1 in Hin. cbn [is_older _mode timezone timedelta].
    split; [|now repeat split].
    apply elem_of_cons in Hin as [Hm|Hin].
    + left. split; [exact Hm|]. now rewrite bool_decide_eq_true_2.
    + apply list_elem_of_singleton in Hin. right. split; [exact Hin|].
      rewrite bool_decide_eq_false_2; [reflexivity|]. now rewrite Hin.
  - apply bool_decide_eq_false_1 in Hin.
    split; [|split; [|reflexivity]]; intros Hm; apply Hin; rewrite Hm;
      rewrite !elem_of_cons; auto.
Qed.

(** *** What [strip] removes *)

Section Strip.
Import Str.

Lemma lstrip_all_space (a : string) : all_space a = true → lstrip a = "".
Proof.
  induction a as [|c a IH]; [reflexivity|]. simpl.
  intros [Hc Ha]%andb_true_iff. rewrite Hc. auto.
Qed.

Lemma rstrip_all_space (a : string) : all_space a = true → rstrip a = "".
Proof.
  induction a as [|c a IH]; [reflexivity|]. simpl.
  intros [Hc Ha]%andb_true_iff. now rewrite (IH Ha), Hc.
Qed.

Lemma lstrip_app_space (a s : string) :
  all_space a = true → lstrip (a +:+ s) = lstrip s.
Proof.
  induction a as [|c a IH]; [reflexivity|]. simpl.
  intros [Hc Ha]%andb_true_iff. rewrite Hc. auto.
Qed.

Lemma rstrip_app_space (s b : string) :
  all_space b = true → rstrip (s +:+ b) = rstrip s.
Proof.
  intros Hb. induction s as [|c s IH]; simpl.
  - now apply rstrip_all_space.
  - now rewrite IH.
Qed.

Lemma lstrip_length (s : string) :
  (String.length (lstrip s) ≤ String.length s)%nat.
Proof.
  induction s as [|c s IH]; simpl; [lia|].
  destruct (isspace c); simpl; lia.
Qed.

(** A string that [lstrip] leaves alone does not start with a space. *)
Lemma lstrip_fixed_app (s b : string) :
  lstrip s = s → s ≠ "" → lstrip (s +:+ b) = s +:+ b.
Proof.
  destruct s as [|c s]; [congruence|]. simpl. intros Hs _.
  destruct (isspace c); [|reflexivity].
  pose proof (lstrip_length s) as Hl. rewrite Hs in Hl. simpl in Hl. lia.
Qed.

(** [strip] removes the whitespace around a core that has none at its
    ends, and nothing else. *)
Lemma strip_surrounded (a core b : string) :
  all_space a = true → all_space b = true →
  lstrip core = core → rstrip core = core →
  strip (a +:+ core +:+ b) = core.
Proof.
  intros Ha Hb Hl Hr. unfold strip. rewrite lstrip_app_space by assumption.
  destruct core as [|c core].
  - simpl. now rewrite lstrip_all_space.
  - rewrite lstrip_fixed_app by (assumption || discriminate).
    now rewrite rstrip_app_space.
Qed.

(** Any casing of a mode word, with any whitespace around it, is
    accepted. *)
Lemma __init___accepts_variants (y mo wk dy h mi sc : Z) (a core b : string)
    (tz : pendulum.Timezone) :
  all_space a = true → all_space b = true →
  lstrip core = core → rstrip core = core →
  lower core = "older" ∨ lower core = "newer" →
  __init__ y mo wk dy h mi sc (a +:+ core +:+ b) tz
  = Return {| _mode := lower core;
              is_older := bool_decide (lower core = "older");
              timezone := tz;
              timedelta := pendulum.duration y mo wk dy h mi sc |}.
Proof.
  intros Ha Hb Hl Hr Hm. unfold __init__.
  rewrite strip_surrounded by assumption.
  now destruct Hm as [-> | ->].
Qed.
End Strip.

Example __init___older_padded :
  __init__ 0 0 0 10 0 0 0 "  OLDER " utc
  = Return (mkDateAdded "older" true utc (pendulum.duration 0 0 0 10 0 0 0)).
Proof. reflexivity. Qed.

Example __init___newer_mixed_case :
  __init__ 0 0 0 0 5 0 0 "Newer" utc
  = Return (mkDateAdded "newer" false utc (pendulum.duration 0 0 0 0 5 0 0)).
Proof. reflexivity. Qed.

Example __init___rejects_old :
  __init__ 0 0 0 0 5 0 0 "old" utc
  = Raise (ValueError "Unknown option for 'mode': must be 'older' or 'newer'.").
Proof. reflexivity. Qed.

Example __init___rejects_inner_space :
  __init__ 0 0 0 0 5 0 0 "ol der" utc
  = Raise (ValueError "Unknown option for 'mode': must be 'older' or 'newer'.").
Proof. reflexivity. Qed.

(** The resolver reads [self] through its timezone only. *)
Lemma _date_added_timezone (w : World) (p : Path) (s1 s2 : DateAdded) :
  timezone s1 = timezone s2 →
  fst (_date_added w p s1) = fst (_date_added w p s2).
Proof.
  intros Htz.
  destruct (files w !! p) as [st|] eqn:Hp.
  - destruct (run w (mdls_argv p)) as [out|e] eqn:Hrun.
    + now rewrite !(_date_added_output w p _ st out Hp Hrun), Htz.
    + rewrite !(_date_added_raised w p _ st e Hp Hrun), Htz.
      now destruct (is_AttributeError e).
  - now rewrite !_date_added_missing.
Qed.

(** An evaluation reads the world through the state of its path and the
    clock only. *)
Lemma pipeline_world_ext (w w' : World) (args : DotDict) (self : DateAdded) :
  files w' !! path args = files w !! path args →
  run w' (mdls_argv (path args)) = run w (mdls_argv (path args)) →
  clock w' = clock w →
  pipeline w' args self = pipeline w args self.
Proof.
  intros Hf Hr Hc.
  unfold pipeline, _date_added, mbind, Method_bind, call, pathlib.stat,
    subprocess.check_output, try_except_AttributeError, attr.
  fold (mdls_argv (path args)). now rewrite Hf, Hr, Hc.
Qed.

(** An evaluation never writes to [self]. *)
Lemma pipeline_frame (w : World) (args : DotDict) (self : DateAdded) :
  snd (pipeline w args self) = self.
Proof.
  destruct (fst (_date_added w (path args) self)) as [t|e] eqn:Ht.
  - now rewrite (pipeline_returned w args self t Ht).
  - now rewrite (pipeline_raised w args self e Ht).
Qed.

Section Matching.
Import pendulum.

(** Once the instant [t] is resolved, and with a duration that is not the
    null duration, [pipeline] matches exactly when [is_older] equals
    "[t] + duration is past". *)
Lemma pipeline_match_iff (w : World) (args : DotDict) (self : DateAdded)
    (t : DateTime) :
  timedelta self ≠ null_duration →
  fst (_date_added w (path args) self) = Return t →
  is_match (fst (pipeline w args self))
  = eqb (is_older self) (is_past (add t (timedelta self)) (clock w)).
Proof.
  intros Hd Ht. rewrite (pipeline_returned w args self t Ht). cbn [fst].
  unfold decision. rewrite truthy_in_words.
  destruct (is_null (timedelta self)) eqn:Hn;
    [now apply is_null_iff in Hn|]. cbn [negb].
  now destruct (eqb _ _).
Qed.

(** C4: for an existing path and a duration that is not the null duration,
    [pipeline] matches exactly when the resolver returns an instant and
    [is_older] equals "instant + duration is past": an OLDER filter
    matches iff the boundary lies strictly before now, a NEWER filter iff
    now is at or before the boundary. *)
Theorem C4_match_iff_direction_agrees_with_past (w : World)
    (args : DotDict) (self : DateAdded) (st : stat_result) :
  files w !! path args = Some st →
  timedelta self ≠ null_duration →
  (is_match (fst (pipeline w args self)) = true
   ↔ ∃ t, fst (_date_added w (path args) self) = Return t
          ∧ is_older self = is_past (add t (timedelta self)) (clock w))
  ∧ (direction self = OLDER →
     (is_match (fst (pipeline w args self)) = true
      ↔ ∃ t, fst (_date_added w (path args) self) = Return t
             ∧ timestamp (add t (timedelta self)) < clock w))
  ∧ (direction self = NEWER →
     (is_match (fst (pipeline w args self)) = true
      ↔ ∃ t, fst (_date_added w (path args) self) = Return t
             ∧ clock w ≤ timestamp (add t (timedelta self)))).
Proof.
  intros _ Hd.
  destruct (fst (_date_added w (path args) self)) as [t|e] eqn:Ht.
  - rewrite (pipeline_match_iff w args self t Hd Ht).
    unfold direction, is_past.
    destruct (is_older self);
      destruct (Z.ltb_spec (timestamp (add t (timedelta self))) (clock w))
        as [Hlt|Hge];
      cbn [eqb]; (split; [|split]); intros; split;
      try discriminate; try reflexivity;
      try (intros (t' & [= <-] & H'); first [discriminate | lia]);
      try (intros _; exists t; split; [reflexivity|]; first [reflexivity | lia]).
  - rewrite (pipeline_raised w args self e Ht). cbn [fst is_match].
    (split; [|split]); intros; split; try discriminate;
      intros (t' & [=] & _).
Qed.

(** C8: a matching evaluation returns a mapping whose only key is
    ["dateadded"], bound to the resolved instant with its year, month,
    day, hour, minute and second; an evaluation that does not match
    returns [None]; an exception only ever comes out of the resolver. *)
Theorem C8_payload_is_dateadded_or_None (w : World) (args : DotDict)
    (self : DateAdded) :
  match fst (pipeline w args self) with
  | Return (Some payload) =>
      ∃ t, fst (_date_added w (path args) self) = Return t
           ∧ decision self t (clock w) = true
           ∧ payload = {[ "dateadded" := t ]}
           ∧ dom payload = {[ "dateadded" ]}
           ∧ (λ v, (year v, month v, day v, hour v, minute v, second v))
               <$> payload !! "dateadded"
             = Some (year t, month t, day t, hour t, minute t, second t)
  | Return None =>
      ∃ t, fst (_date_added w (path args) self) = Return t
           ∧ decision self t (clock w) = false
  | Raise e => fst (_date_added w (path args) self) = Raise e
  end.
Proof.
  destruct (fst (_date_added w (path args) self)) as [t|e] eqn:Ht.
  - rewrite (pipeline_returned w args self t Ht). simpl.
    destruct (decision self t (clock w)) eqn:Hdec.
    + exists t. split; [reflexivity|]. split; [exact Hdec|].
      split; [reflexivity|]. split.
      * apply dom_singleton_L.
      * now rewrite lookup_singleton_eq.
    + now exists t.
  - now rewrite (pipeline_raised w args self e Ht).
Qed.

(** C9: two filters built with the same duration, not the null one, and
    the same timezone, one with mode "older" and one with mode "newer",
    resolve the same instant, and for every "now" exactly one of them
    matches; [is_past] is strict, so when now is the boundary instant
    itself the NEWER filter matches and the OLDER one does not. *)
Theorem C9_exactly_one_direction_matches (w : World) (args : DotDict)
    (tz : Timezone) (y mo wk dy h mi sc : Z) (t : DateTime)
    (older newer : DateAdded) :
  duration y mo wk dy h mi sc ≠ null_duration →
  __init__ y mo wk dy h mi sc "older" tz = Return older →
  __init__ y mo wk dy h mi sc "newer" tz = Return newer →
  fst (_date_added w (path args) older) = Return t →
  fst (_date_added w (path args) newer) = Return t
  ∧ xorb (is_match (fst (pipeline w args older)))
         (is_match (fst (pipeline w args newer))) = true
  ∧ (timestamp (add t (duration y mo wk dy h mi sc)) = clock w →
     is_match (fst (pipeline w args older)) = false
     ∧ is_match (fst (pipeline w args newer)) = true).
Proof.
  intros Hd Ho Hn Ht.
  apply __init___fields in Ho as (_ & Ho & Htzo & Hdo).
  apply __init___fields in Hn as (_ & Hn & Htzn & Hdn).
  change (is_older older = true) in Ho.
  change (is_older newer = false) in Hn.
  assert (Ht' : fst (_date_added w (path args) newer) = Return t).
  { rewrite <- Ht. apply _date_added_timezone. congruence. }
  split; [exact Ht'|].
  rewrite (pipeline_returned w args _ t Ht),
          (pipeline_returned w args _ t Ht'). cbn [fst].
  unfold decision. rewrite Hdo, Hdn, Ho, Hn, truthy_in_words.
  destruct (is_null (duration y mo wk dy h mi sc)) eqn:Hnull;
    [now apply is_null_iff in Hnull|]. cbn [negb].
  unfold is_past.
  destruct (Z.ltb_spec (timestamp (add t (duration y mo wk dy h mi sc)))
              (clock w)) as [Hlt|Hge];
    cbn [eqb is_match xorb]; (split; [reflexivity|]); intros Hb;
    [lia | now split].
Qed.
End Matching.

(** ** The boundary of the window *)

Section Calendar.
Import pendulum.

(** An addition works on the wall clock of the zone of its left
    operand. *)
Lemma add_local (dt : DateTime) (d : Duration) :
  add dt d
  = of_local (local_microseconds
                (add_years_months dt (years d) (months d))
              + fixed_microseconds d) (tzinfo dt).
Proof.
  unfold add, from_timestamp, timestamp. f_equal.
  cbn [tzinfo add_years_months]. lia.
Qed.

(** The calendar step lands on a month of the calendar, the right number
    of months away, and on the day of the left operand unless the month
    reached is shorter. *)
Lemma add_years_months_clamps (dt : DateTime) (ys ms : Z) :
  let r := add_years_months dt ys ms in
  1 ≤ month r ≤ 12
  ∧ 12 * year r + month r = 12 * (year dt + ys) + month dt + ms
  ∧ day r = Z.min (days_in_month (year r) (month r)) (day dt).
Proof.
  cbn [add_years_months year month day].
  pose proof (Z.mod_pos_bound (month dt - 1 + ms) 12 ltac:(lia)) as Hm.
  pose proof (Z.div_mod (month dt - 1 + ms) 12 ltac:(lia)) as Hd.
  repeat split; lia.
Qed.

(** C5: the boundary is found on the calendar. One year after
    2024-02-29 is 2025-02-28 and not 2025-03-01; one year after
    2023-03-01 is 2024-03-01, 366 days later and not 365; one month after
    the 31st of January or March is the last day of the month that
    follows. The evaluation uses that boundary: a one-year OLDER filter
    on a file of 2024-02-29 00:00:00 UTC matches exactly when now is
    after 2025-02-28 00:00:00 UTC. *)
Theorem C5_boundary_follows_the_calendar (tz : Timezone) :
  add (mkDateTime 2024 2 29 0 0 0 0 tz) (duration 1 0 0 0 0 0 0)
  = mkDateTime 2025 2 28 0 0 0 0 tz
  ∧ add (mkDateTime 2024 2 29 0 0 0 0 tz) (duration 1 0 0 0 0 0 0)
    ≠ mkDateTime 2025 3 1 0 0 0 0 tz
  ∧ add (mkDateTime 2023 3 1 0 0 0 0 tz) (duration 1 0 0 0 0 0 0)
    = mkDateTime 2024 3 1 0 0 0 0 tz
  ∧ timestamp (mkDateTime 2024 3 1 0 0 0 0 tz)
    - timestamp (mkDateTime 2023 3 1 0 0 0 0 tz) = 366 * US_PER_DAY
  ∧ add (mkDateTime 2024 1 31 0 0 0 0 tz) (duration 0 1 0 0 0 0 0)
    = mkDateTime 2024 2 29 0 0 0 0 tz
  ∧ add (mkDateTime 2023 1 31 0 0 0 0 tz) (duration 0 1 0 0 0 0 0)
    = mkDateTime 2023 2 28 0 0 0 0 tz
  ∧ add (mkDateTime 2024 3 31 0 0 0 0 tz) (duration 0 1 0 0 0 0 0)
    = mkDateTime 2024 4 30 0 0 0 0 tz
  ∧ (∀ now : Z,
       fst (pipeline (leap_world now) (mkArgs report) one_year_older)
       = Return (if 1740700800000000 <? now
                 then Some {[ "dateadded" := mkDateTime 2024 2 29 0 0 0 0 utc ]}
                 else None)).
Proof.
  assert (H1 : add (mkDateTime 2024 2 29 0 0 0 0 tz) (duration 1 0 0 0 0 0 0)
               = mkDateTime 2025 2 28 0 0 0 0 tz)
    by (rewrite add_local; reflexivity).
  split; [exact H1|]. split; [rewrite H1; discriminate|].
  split; [rewrite add_local; reflexivity|].
  split.
  { assert (E1 : local_microseconds (mkDateTime 2024 3 1 0 0 0 0 tz)
                 = 1709251200000000) by reflexivity.
    assert (E2 : local_microseconds (mkDateTime 2023 3 1 0 0 0 0 tz)
                 = 1677628800000000) by reflexivity.
    assert (E3 : 366 * US_PER_DAY = 31622400000000) by reflexivity.
    unfold timestamp. rewrite E1, E2, E3. cbn [tzinfo]. lia. }
  split; [rewrite add_local; reflexivity|].
  split; [rewrite add_local; reflexivity|].
  split; [rewrite add_local; reflexivity|].
  intros now.
  rewrite (pipeline_returned _ _ _ (mkDateTime 2024 2 29 0 0 0 0 utc)).
  - cbn [fst]. unfold decision, is_past.
    replace (add (mkDateTime 2024 2 29 0 0 0 0 utc)
                 (timedelta one_year_older))
      with (mkDateTime 2025 2 28 0 0 0 0 utc)
      by (rewrite add_local; reflexivity).
    change (Str.truthy (in_words (timedelta one_year_older))) with true.
    change (timestamp (mkDateTime 2025 2 28 0 0 0 0 utc))
      with 1740700800000000.
    cbn [is_older one_year_older leap_world clock eqb].
    now destruct (1740700800000000 <? now).
  - rewrite (_date_added_output _ _ _ (mk_stat leap_mtime) "(null)");
      [reflexivity | apply lookup_singleton_eq | reflexivity].
Qed.
End Calendar.

(** C10: an evaluation leaves the filter object as it found it, so the
    object carries nothing from one call to the next: a second call in a
    world with the same state of the path and the same clock gives the same
    result, and a call on another path gives what it gives on a fresh
    filter. *)
Theorem C10_pipeline_is_pure (w w' : World) (args args' : DotDict)
    (self : DateAdded) :
  files w' !! path args = files w !! path args →
  run w' (mdls_argv (path args)) = run w (mdls_argv (path args)) →
  clock w' = clock w →
  snd (pipeline w args self) = self
  ∧ pipeline w' args (snd (pipeline w args self)) = pipeline w args self
  ∧ pipeline w args' (snd (pipeline w args self)) = pipeline w args' self.
Proof.
  intros Hf Hr Hc. rewrite pipeline_frame.
  split; [reflexivity|]. split; [|reflexivity].
  now apply pipeline_world_ext.
Qed.

(** ** Scenarios *)

(** Ten days, older, for a file that is fifteen days old: a match, with the
    calendar fields of the resolved instant. *)
Example scenario_ten_days_older :
  pipeline (mac_world "(null)" (report_mtime + 15 * 24 * HOUR))
           (mkArgs report) ten_days_older
  = (Return (Some {[ "dateadded" :=
                       pendulum.mkDateTime 2023 11 14 22 13 20 0 utc ]}),
     ten_days_older).
Proof. vm_compute. reflexivity. Qed.

(** Five hours, newer: a file that is two hours old matches, one that is
    eight hours old does not. *)
Example scenario_five_hours_newer :
  fst (pipeline (mac_world "(null)" (report_mtime + 2 * HOUR))
                (mkArgs report) five_hours_newer)
  = Return (Some {[ "dateadded" :=
                      pendulum.mkDateTime 2023 11 14 22 13 20 0 utc ]})
  ∧ fst (pipeline (mac_world "(null)" (report_mtime + 8 * HOUR))
                  (mkArgs report) five_hours_newer)
    = Return None.
Proof. split; vm_compute; reflexivity. Qed.

(** ** Instances *)

Lemma C4_witness :
  is_match (fst (pipeline (mac_world "(null)" (report_mtime + 15 * 24 * HOUR))
                          (mkArgs report) ten_days_older)) = true
  ↔ ∃ t, fst (_date_added (mac_world "(null)" (report_mtime + 15 * 24 * HOUR))
                          (path (mkArgs report)) ten_days_older) = Return t
         ∧ is_older ten_days_older
           = pendulum.is_past
               (pendulum.add t (timedelta ten_days_older))
               (clock (mac_world "(null)" (report_mtime + 15 * 24 * HOUR))).
Proof.
  refine (proj1 (C4_match_iff_direction_agrees_with_past
                   (mac_world "(null)" (report_mtime + 15 * 24 * HOUR))
                   (mkArgs report) ten_days_older (mk_stat report_mtime)
                   _ _)).
  - reflexivity.
  - discriminate.
Defined.

Lemma C9_witness :
  xorb (is_match (fst (pipeline (mac_world "(null)" (report_mtime + HOUR))
                                (mkArgs report) ten_days_older)))
       (is_match (fst (pipeline (mac_world "(null)" (report_mtime + HOUR))
                                (mkArgs report) ten_days_newer)))
  = true.
Proof.
  refine (proj1 (proj2 (C9_exactly_one_direction_matches
                          (mac_world "(null)" (report_mtime + HOUR))
                          (mkArgs report) utc 0 0 0 10 0 0 0
                          (pendulum.from_timestamp report_mtime utc)
                          ten_days_older ten_days_newer _ _ _ _))).
  - discriminate.
  - reflexivity.
  - reflexivity.
  - reflexivity.
Defined.

Lemma C10_witness :
  snd (pipeline (mac_world "(null)" (report_mtime + HOUR)) (mkArgs report)
                ten_days_older) = ten_days_older
  ∧ pipeline (two_files_world (report_mtime + HOUR)) (mkArgs report)
             (snd (pipeline (mac_world "(null)" (report_mtime + HOUR))
                            (mkArgs report) ten_days_older))
    = pipeline (mac_world "(null)" (report_mtime + HOUR)) (mkArgs report)
               ten_days_older
  ∧ pipeline (mac_world "(null)" (report_mtime + HOUR)) (mkArgs notes)
             (snd (pipeline (mac_world "(null)" (report_mtime + HOUR))
                            (mkArgs report) ten_days_older))
    = pipeline (mac_world "(null)" (report_mtime + HOUR)) (mkArgs notes)
               ten_days_older.
Proof.
  apply (C10_pipeline_is_pure (mac_world "(null)" (report_mtime + HOUR))
           (two_files_world (report_mtime + HOUR)) (mkArgs report)
           (mkArgs notes) ten_days_older).
  - vm_compute. reflexivity.
  - reflexivity.
  - reflexivity.
Defined.

(** * Further properties *)

(** ** Day numbers and civil dates *)

Section CalendarRoundTrip.
Import pendulum.

Lemma forall_from_spec (n : nat) (from : Z) (f : Z → bool) :
  forall_from n from f = true →
  ∀ x, from ≤ x < from + Z.of_nat n → f x = true.
Proof.
  revert from. induction n as [|n IH]; intros from H x Hx; [lia|].
  simpl in H. apply andb_true_iff in H as [H0 H1].
  destruct (Z.eq_dec x from) as [->|Hne]; [assumption|].
  apply (IH (from + 1) H1). lia.
Qed.

(** The 146097 days of one era of 400 years, checked one by one; every
    other day is one of these moved by whole eras. *)
Lemma day_check_era : forall_from (Z.to_nat 146097) 0 day_check = true.
Proof. vm_cast_no_check (eq_refl true). Qed.

Lemma civil_from_days_shift (z k : Z) :
  civil_from_days (z + 146097 * k)
  = let '(y, m, d) := civil_from_days z in (y + 400 * k, m, d).
Proof.
  unfold civil_from_days. cbv zeta.
  replace (z + 146097 * k + 719468) with (z + 719468 + k * 146097) by lia.
  rewrite Z.div_add by lia.
  replace (z + 719468 + k * 146097 - ((z + 719468) / 146097 + k) * 146097)
    with (z + 719468 - (z + 719468) / 146097 * 146097) by lia.
  f_equal. f_equal. lia.
Qed.

Lemma days_from_civil_shift (y m d k : Z) :
  days_from_civil (y + 400 * k) m d = days_from_civil y m d + 146097 * k.
Proof.
  unfold days_from_civil. cbv zeta.
  replace (if m <=? 2 then y + 400 * k - 1 else y + 400 * k)
    with ((if m <=? 2 then y - 1 else y) + k * 400)
    by (destruct (m <=? 2); lia).
  rewrite Z.div_add by lia.
  set (y' := if m <=? 2 then y - 1 else y).
  replace (y' + k * 400 - (y' / 400 + k) * 400) with (y' - y' / 400 * 400)
    by lia.
  lia.
Qed.

Lemma is_leap_shift (y k : Z) : is_leap (y + 400 * k) = is_leap y.
Proof.
  unfold is_leap.
  replace ((y + 400 * k) mod 4) with (y mod 4)
    by (replace (y + 400 * k) with (y + (100 * k) * 4) by lia;
        now rewrite Z.mod_add by lia).
  replace ((y + 400 * k) mod 100) with (y mod 100)
    by (replace (y + 400 * k) with (y + (4 * k) * 100) by lia;
        now rewrite Z.mod_add by lia).
  replace ((y + 400 * k) mod 400) with (y mod 400)
    by (replace (y + 400 * k) with (y + k * 400) by lia;
        now rewrite Z.mod_add by lia).
  reflexivity.
Qed.

Lemma valid_date_shift (y m d k : Z) :
  valid_date (y + 400 * k) m d = valid_date y m d.
Proof. unfold valid_date, days_in_month. now rewrite is_leap_shift. Qed.

(** Every day number is the number of the civil date it denotes, and that
    date is one of the calendar. *)
Lemma civil_from_days_sound (z : Z) :
  let '(y, m, d) := civil_from_days z in
  days_from_civil y m d = z ∧ valid_date y m d = true.
Proof.
  pose (k := (z + 719468) / 146097).
  pose (doe := (z + 719468) mod 146097).
  assert (Hz : z = doe - 719468 + 146097 * k).
  { unfold doe, k. pose proof (Z.div_mod (z + 719468) 146097 ltac:(lia)). lia. }
  assert (Hdoe : 0 ≤ doe < 146097) by (apply Z.mod_pos_bound; lia).
  pose proof (forall_from_spec _ _ _ day_check_era doe) as Hc.
  rewrite Z2Nat.id in Hc by lia. specialize (Hc ltac:(lia)).
  unfold day_check in Hc.
  rewrite Hz, civil_from_days_shift.
  destruct (civil_from_days (doe - 719468)) as [[y m] d].
  apply andb_true_iff in Hc as [Hd Hv]. apply Z.eqb_eq in Hd.
  rewrite days_from_civil_shift, valid_date_shift. split; [lia|exact Hv].
Qed.

Lemma local_microseconds_of_local (x : Z) (tz : Timezone) :
  local_microseconds (of_local x tz) = x.
Proof.
  unfold of_local, local_microseconds.
  pose proof (civil_from_days_sound (x / US_PER_DAY)) as H.
  destruct (civil_from_days (x / US_PER_DAY)) as [[y m] d].
  destruct H as [H _]. cbn [year month day hour minute second microsecond].
  rewrite H. unfold US_PER_DAY, US_PER_SECOND.
  Z.div_mod_to_equations. lia.
Qed.

Lemma valid_of_local (x : Z) (tz : Timezone) : valid (of_local x tz) = true.
Proof.
  unfold of_local, valid.
  pose proof (civil_from_days_sound (x / US_PER_DAY)) as H.
  destruct (civil_from_days (x / US_PER_DAY)) as [[y m] d].
  destruct H as [_ H]. cbn [year month day hour minute second microsecond].
  rewrite H. unfold US_PER_DAY, US_PER_SECOND.
  rewrite !andb_true_iff, !Z.leb_le, !Z.ltb_lt.
  Z.div_mod_to_equations. lia.
Qed.

Lemma tzinfo_of_local (x : Z) (tz : Timezone) : tzinfo (of_local x tz) = tz.
Proof.
  unfold of_local. now destruct (civil_from_days (x / US_PER_DAY)) as [[y m] d].
Qed.

Lemma timestamp_from_timestamp (ts : Z) (tz : Timezone) :
  timestamp (from_timestamp ts tz) = ts.
Proof.
  unfold timestamp, from_timestamp.
  rewrite local_microseconds_of_local, tzinfo_of_local. lia.
Qed.

Lemma add_years_months_zero (dt : DateTime) :
  valid dt = true → add_years_months dt 0 0 = dt.
Proof.
  unfold valid, valid_date. rewrite !andb_true_iff, !Z.leb_le, !Z.ltb_lt.
  intros H. destruct dt as [y m d h mi s us tz].
  cbn [year month day hour minute second microsecond tzinfo] in *.
  unfold add_years_months.
  cbn [year month day hour minute second microsecond tzinfo].
  assert (Hq : (m - 1 + 0) / 12 = 0) by (Z.div_mod_to_equations; lia).
  assert (Hr : (m - 1 + 0) mod 12 + 1 = m) by (Z.div_mod_to_equations; lia).
  rewrite Hq, Hr. replace (y + 0 + 0) with y by lia.
  f_equal. lia.
Qed.

Lemma timestamp_add_fixed (dt : DateTime) (d : Duration) :
  valid dt = true → years d = 0 → months d = 0 →
  timestamp (add dt d) = timestamp dt + fixed_microseconds d.
Proof.
  intros Hv Hy Hm. unfold add. rewrite Hy, Hm, add_years_months_zero by exact Hv.
  apply timestamp_from_timestamp.
Qed.

End CalendarRoundTrip.

(** ** Description *)



Lemma __init___mode (y mo wk dy h mi sc : Z) (mode : string)
    (tz : pendulum.Timezone) (f : DateAdded) :
  __init__ y mo wk dy h mi sc mode tz = Return f →
  (_mode f = "older" ∧ is_older f = true)
  ∨ (_mode f = "newer" ∧ is_older f = false).
Proof.
  unfold __init__.
  destruct (bool_decide _) eqn:Hin; cbn [negb]; [|discriminate].
  intros [= <-]. cbn [_mode is_older].
  apply bool_decide_eq_true_1 in Hin.
  apply elem_of_cons in Hin as [Hm|Hin].
  - left. now rewrite Hm.
  - apply list_elem_of_singleton in Hin. right. now rewrite Hin.
Qed.


(** X2: a constructed filter stores "older" or "newer" as its mode,
    [is_older] is true exactly for "older", and constructing again from
    the stored mode gives the same filter. *)
Theorem X2_stored_mode_is_canonical (y mo wk dy h mi sc : Z) (mode : string)
    (tz : pendulum.Timezone) (f : DateAdded) :
  __init__ y mo wk dy h mi sc mode tz = Return f →
  (_mode f = "older" ∨ _mode f = "newer")
  ∧ (is_older f = true ↔ _mode f = "older")
  ∧ __init__ y mo wk dy h mi sc (_mode f) tz = Return f.
Proof.
  intros Hf.
  pose proof (__init___fields _ _ _ _ _ _ _ _ _ _ Hf) as (_ & _ & Htz & Hd).
  destruct f as [m o z d]. cbn [_mode is_older timezone timedelta] in *.
  destruct (__init___mode _ _ _ _ _ _ _ _ _ _ Hf) as [[Hm Ho]|[Hm Ho]];
    cbn [_mode is_older] in Hm, Ho; subst; repeat split; auto;
    try discriminate.
Qed.

(** ** Outcomes of the resolver and of an evaluation *)

(** What the resolver does, by the state of the path and the outcome of
    the native query. *)
Lemma _date_added_cases (w : World) (p : Path) (self : DateAdded) :
  fst (_date_added w p self)
  = match files w !! p with
    | None => Raise (FileNotFoundError p)
    | Some st =>
        match run w (mdls_argv p) with
        | Raise e =>
            if is_AttributeError e
            then Return (pendulum.from_timestamp (st_mtime st) (timezone self))
            else Raise e
        | Return _ =>
            Return (pendulum.from_timestamp (st_mtime st) (timezone self))
        end
    end.
Proof.
  destruct (files w !! p) as [st|] eqn:Hp.
  - destruct (run w (mdls_argv p)) as [out|e] eqn:Hrun.
    + now rewrite (_date_added_output w p self st out Hp Hrun).
    + rewrite (_date_added_raised w p self st e Hp Hrun).
      now destruct (is_AttributeError e).
  - now rewrite _date_added_missing.
Qed.


Section Elapsed.
Import pendulum.

(** X4: the instant of a match payload is the last-modified time of the
    path, read in the timezone of the filter, and its fields are a date of
    the calendar and a time of day. *)
Theorem X4_payload_is_the_last_modified_instant (w : World) (args : DotDict)
    (self : DateAdded) (payload : gmap string DateTime) :
  fst (pipeline w args self) = Return (Some payload) →
  ∃ st t, files w !! path args = Some st
          ∧ payload !! "dateadded" = Some t
          ∧ timestamp t = st_mtime st
          ∧ tzinfo t = timezone self
          ∧ valid t = true.
Proof.
  intros Hr.
  destruct (fst (_date_added w (path args) self)) as [t|e] eqn:Ht.
  - rewrite (pipeline_returned w args self t Ht) in Hr. cbn [fst] in Hr.
    destruct (decision self t (clock w)); [|discriminate].
    injection Hr as <-.
    destruct (_date_added_returns w (path args) self t Ht) as (st & Hp & ->).
    exists st, (from_timestamp (st_mtime st) (timezone self)).
    split; [exact Hp|]. split; [apply lookup_singleton_eq|].
    split; [apply timestamp_from_timestamp|].
    split; [apply tzinfo_of_local | apply valid_of_local].
  - rewrite (pipeline_raised w args self e Ht) in Hr. discriminate.
Qed.

(** The boundary of a duration without years and months is the
    last-modified time plus the length of the duration. *)
Lemma boundary_fixed (st : stat_result) (tz : Timezone) (d : Duration) :
  years d = 0 → months d = 0 →
  timestamp (add (from_timestamp (st_mtime st) tz) d)
  = st_mtime st + fixed_microseconds d.
Proof.
  intros Hy Hm.
  rewrite timestamp_add_fixed;
    [now rewrite timestamp_from_timestamp | apply valid_of_local | assumption
    | assumption].
Qed.

(** X5: with a duration without years and months (of any sign), the
    filter compares elapsed time: OLDER matches exactly when more than the
    duration has passed since the last-modified time, NEWER exactly when
    at most the duration has passed. *)
Theorem X5_fixed_duration_compares_elapsed_time (w : World) (args : DotDict)
    (self : DateAdded) (st : stat_result) (t : DateTime) :
  files w !! path args = Some st →
  fst (_date_added w (path args) self) = Return t →
  years (timedelta self) = 0 → months (timedelta self) = 0 →
  timedelta self ≠ null_duration →
  (direction self = OLDER →
   (is_match (fst (pipeline w args self)) = true
    ↔ fixed_microseconds (timedelta self) < clock w - st_mtime st))
  ∧ (direction self = NEWER →
     (is_match (fst (pipeline w args self)) = true
      ↔ clock w - st_mtime st ≤ fixed_microseconds (timedelta self))).
Proof.
  intros Hp Ht Hy Hm Hd.
  rewrite (pipeline_match_iff w args self t Hd Ht).
  destruct (_date_added_returns w (path args) self t Ht) as (st' & Hp' & ->).
  assert (st' = st) as -> by congruence.
  unfold is_past, direction. rewrite boundary_fixed by assumption.
  destruct (is_older self);
    destruct (Z.ltb_spec (st_mtime st + fixed_microseconds (timedelta self))
                (clock w)); cbn [eqb];
    split; intros Hdir; try discriminate; split; intros; try discriminate;
    try reflexivity; lia.
Qed.

(** X6: with a duration without years and months the timezone has no
    influence on whether a path matches. *)
Theorem X6_timezone_is_irrelevant_for_fixed_durations (w : World)
    (args : DotDict) (self self' : DateAdded) :
  is_older self' = is_older self →
  timedelta self' = timedelta self →
  years (timedelta self) = 0 → months (timedelta self) = 0 →
  is_match (fst (pipeline w args self'))
  = is_match (fst (pipeline w args self)).
Proof.
  intros Ho Hd Hy Hm.
  pose proof (_date_added_cases w (path args) self) as Hc.
  pose proof (_date_added_cases w (path args) self') as Hc'.
  destruct (files w !! path args) as [st|] eqn:Hp.
  - assert (Hboth :
      (∃ e, fst (_date_added w (path args) self) = Raise e
            ∧ fst (_date_added w (path args) self') = Raise e)
      ∨ (fst (_date_added w (path args) self)
         = Return (from_timestamp (st_mtime st) (timezone self))
         ∧ fst (_date_added w (path args) self')
           = Return (from_timestamp (st_mtime st) (timezone self')))).
    { destruct (run w (mdls_argv (path args))) as [out|e]; [now right|].
      destruct (is_AttributeError e); [now right|]. left. now exists e. }
    destruct Hboth as [(e & He & He')|[Ht Ht']].
    + now rewrite (pipeline_raised _ _ _ e He), (pipeline_raised _ _ _ e He').
    + rewrite (pipeline_returned _ _ _ _ Ht), (pipeline_returned _ _ _ _ Ht').
      cbn [fst]. unfold decision, is_past. rewrite Hd, Ho.
      rewrite !boundary_fixed by assumption.
      destruct (Str.truthy _); [|reflexivity].
      now destruct (eqb _ _).
  - now rewrite (pipeline_raised _ _ _ _ Hc), (pipeline_raised _ _ _ _ Hc').
Qed.

(** X7: time only moves paths from NEWER to OLDER. With the state of the
    path unchanged, a path that an OLDER filter matches is matched at every
    later time, and a path that a NEWER filter matches was matched at
    every earlier time. *)
Theorem X7_matching_is_monotone_in_time (w w' : World) (args : DotDict)
    (self : DateAdded) :
  files w' !! path args = files w !! path args →
  run w' (mdls_argv (path args)) = run w (mdls_argv (path args)) →
  clock w ≤ clock w' →
  (direction self = OLDER →
   is_match (fst (pipeline w args self)) = true →
   is_match (fst (pipeline w' args self)) = true)
  ∧ (direction self = NEWER →
     is_match (fst (pipeline w' args self)) = true →
     is_match (fst (pipeline w args self)) = true).
Proof.
  intros Hf Hr Hc.
  pose proof (_date_added_cases w (path args) self) as Hw.
  pose proof (_date_added_cases w' (path args) self) as Hw'.
  rewrite Hf, Hr, <- Hw in Hw'.
  destruct (fst (_date_added w (path args) self)) as [t|e] eqn:Ht.
  - rewrite (pipeline_returned _ _ _ t Ht), (pipeline_returned _ _ _ t Hw').
    cbn [fst]. unfold decision, direction, is_past.
    destruct (Str.truthy _); [|now split].
    destruct (is_older self);
      destruct (Z.ltb_spec (timestamp (add t (timedelta self))) (clock w));
      destruct (Z.ltb_spec (timestamp (add t (timedelta self))) (clock w'));
      cbn [eqb is_match]; split; intros; try discriminate; try reflexivity;
      lia.
  - rewrite (pipeline_raised _ _ _ e Ht), (pipeline_raised _ _ _ e Hw').
    now split.
Qed.
End Elapsed.

(** ** Mode words *)

Section ModeWords.
Import Str.

Lemma isspace_lower_char (c : ascii) : isspace (lower_char c) = isspace c.
Proof. destruct c as [[] [] [] [] [] [] [] []]; reflexivity. Qed.

(** A string whose lower-casing has five characters, none of them
    whitespace, has no whitespace at its ends. *)
Lemma lower_word5_no_outer_space (core : string) (c1 c2 c3 c4 c5 : ascii) :
  lower core = String c1 (String c2 (String c3 (String c4 (String c5 "")))) →
  isspace c1 = false → isspace c5 = false →
  lstrip core = core ∧ rstrip core = core.
Proof.
  destruct core as [|a1 [|a2 [|a3 [|a4 [|a5 [|a6 rest]]]]]]; try discriminate.
  cbn [lower]. intros [= <- _ _ _ <-].
  rewrite !isspace_lower_char. intros H1 H5.
  cbn [lstrip rstrip]. now rewrite H1, H5.
Qed.

Lemma mode_word_no_outer_space (core : string) :
  lower core = "older" ∨ lower core = "newer" →
  lstrip core = core ∧ rstrip core = core.
Proof.
  intros [H|H]; eapply lower_word5_no_outer_space; try exact H; reflexivity.
Qed.

(** X8: the casing of the mode and the whitespace around it are ignored:
    a word that lower-cases to "older" or "newer", between any two runs of
    whitespace, constructs the same filter as the lower-case word. *)
Theorem X8_case_and_surrounding_whitespace_are_ignored
    (y mo wk dy h mi sc : Z) (a core b : string) (tz : pendulum.Timezone) :
  all_space a = true → all_space b = true →
  lower core = "older" ∨ lower core = "newer" →
  __init__ y mo wk dy h mi sc (a +:+ core +:+ b) tz
  = __init__ y mo wk dy h mi sc (lower core) tz
  ∧ ∃ f, __init__ y mo wk dy h mi sc (a +:+ core +:+ b) tz = Return f
         ∧ _mode f = lower core.
Proof.
  intros Ha Hb Hm.
  destruct (mode_word_no_outer_space core Hm) as [Hl Hr].
  rewrite (__init___accepts_variants y mo wk dy h mi sc a core b tz
             Ha Hb Hl Hr Hm).
  split; [|eexists; split; reflexivity].
  destruct Hm as [-> | ->]; reflexivity.
Qed.
End ModeWords.


Section Boundary.
Import pendulum.

(** X10: the boundary of the window. The filter compares now with the
    instant of the calendar date reached by moving the resolved instant by
    the years and months of the duration (same time of day and zone, day
    clamped to the length of the month reached), plus the fixed length of
    the other components. *)
Theorem X10_boundary_is_the_clamped_calendar_date (w : World)
    (args : DotDict) (self : DateAdded) (t : DateTime) :
  fst (_date_added w (path args) self) = Return t →
  timedelta self ≠ null_duration →
  let d := timedelta self in
  let r := add_years_months t (years d) (months d) in
  is_match (fst (pipeline w args self))
  = eqb (is_older self) (timestamp r + fixed_microseconds d <? clock w)
  ∧ 1 ≤ month r ≤ 12
  ∧ 12 * year r + month r = 12 * (year t + years d) + month t + months d
  ∧ day r = Z.min (days_in_month (year r) (month r)) (day t)
  ∧ (hour r, minute r, second r, microsecond r, tzinfo r)
    = (hour t, minute t, second t, microsecond t, tzinfo t).
Proof.
  intros Ht Hd d r.
  rewrite (pipeline_match_iff w args self t Hd Ht).
  unfold is_past, add. rewrite timestamp_from_timestamp.
  split; [reflexivity|].
  destruct (add_years_months_clamps t (years d) (months d)) as (H1 & H2 & H3).
  repeat split; try assumption; apply H1.
Qed.
End Boundary.

(** With a duration of months the timezone does matter: a month after
    2024-01-30 23:30 UTC is 2024-02-29 23:30 UTC, but in UTC+1 the file
    is of 2024-01-31 00:30 and a month later is 2024-02-29 00:30 there,
    a day earlier. At 2024-02-29 00:00 UTC the two filters disagree. *)
Example timezone_matters_for_months :
  is_match (fst (pipeline (late_january_world leap_mtime) (mkArgs report)
                          one_month_older)) = false
  ∧ is_match (fst (pipeline (late_january_world leap_mtime) (mkArgs report)
                            one_month_older_cet)) = true.
Proof. split; vm_compute; reflexivity. Qed.

(** ** Instances of the further properties *)


Lemma X2_witness :
  __init__ 0 0 0 10 0 0 0 (_mode ten_days_newer) utc = Return ten_days_newer.
Proof.
  exact (proj2 (proj2 (X2_stored_mode_is_canonical
                         0 0 0 10 0 0 0 "Newer " utc ten_days_newer eq_refl))).
Defined.

Lemma X4_witness :
  ∃ st t,
    files (mac_world "(null)" (report_mtime + 15 * 24 * HOUR))
      !! path (mkArgs report) = Some st
    ∧ ({[ "dateadded" := pendulum.mkDateTime 2023 11 14 22 13 20 0 utc ]}
       : gmap string pendulum.DateTime) !! "dateadded" = Some t
    ∧ pendulum.timestamp t = st_mtime st
    ∧ pendulum.tzinfo t = timezone ten_days_older
    ∧ valid t = true.
Proof.
  apply (X4_payload_is_the_last_modified_instant
           (mac_world "(null)" (report_mtime + 15 * 24 * HOUR))
           (mkArgs report) ten_days_older).
  vm_compute. reflexivity.
Defined.

Lemma X5_witness :
  is_match (fst (pipeline (mac_world "(null)" (report_mtime + 15 * 24 * HOUR))
                          (mkArgs report) ten_days_older)) = true
  ↔ pendulum.fixed_microseconds (timedelta ten_days_older)
    < clock (mac_world "(null)" (report_mtime + 15 * 24 * HOUR))
      - st_mtime (mk_stat report_mtime).
Proof.
  refine (proj1 (X5_fixed_duration_compares_elapsed_time
                   (mac_world "(null)" (report_mtime + 15 * 24 * HOUR))
                   (mkArgs report) ten_days_older (mk_stat report_mtime)
                   (pendulum.from_timestamp report_mtime utc) _ _ _ _ _) _).
  - reflexivity.
  - reflexivity.
  - reflexivity.
  - reflexivity.
  - discriminate.
  - reflexivity.
Defined.

Lemma X6_witness :
  is_match (fst (pipeline (mac_world "(null)" (report_mtime + 15 * 24 * HOUR))
                          (mkArgs report) ten_days_older_cet))
  = is_match (fst (pipeline (mac_world "(null)" (report_mtime + 15 * 24 * HOUR))
                            (mkArgs report) ten_days_older)).
Proof.
  apply (X6_timezone_is_irrelevant_for_fixed_durations
           (mac_world "(null)" (report_mtime + 15 * 24 * HOUR))
           (mkArgs report) ten_days_older ten_days_older_cet);
    reflexivity.
Defined.

Lemma X7_witness :
  is_match (fst (pipeline (mac_world "(null)" (report_mtime + 12 * 24 * HOUR))
                          (mkArgs report) ten_days_older)) = true.
Proof.
  refine (proj1 (X7_matching_is_monotone_in_time
                   (mac_world "(null)" (report_mtime + 11 * 24 * HOUR))
                   (mac_world "(null)" (report_mtime + 12 * 24 * HOUR))
                   (mkArgs report) ten_days_older _ _ _) _ _).
  - reflexivity.
  - reflexivity.
  - vm_compute. discriminate.
  - reflexivity.
  - vm_compute. reflexivity.
Defined.

Lemma X8_witness :
  __init__ 0 0 0 10 0 0 0 ("  " +:+ "OLDER" +:+ " ") utc
  = __init__ 0 0 0 10 0 0 0 (Str.lower "OLDER") utc.
Proof.
  refine (proj1 (X8_case_and_surrounding_whitespace_are_ignored
                   0 0 0 10 0 0 0 "  " "OLDER" " " utc _ _ _)).
  - reflexivity.
  - reflexivity.
  - left. reflexivity.
Defined.


Lemma X10_witness :
  is_match (fst (pipeline (leap_world (leap_mtime + 1)) (mkArgs report)
                          one_year_older))
  = eqb (is_older one_year_older)
        (pendulum.timestamp
           (pendulum.add_years_months
              (pendulum.from_timestamp leap_mtime utc) 1 0)
         + pendulum.fixed_microseconds (timedelta one_year_older)
         <? clock (leap_world (leap_mtime + 1))).
Proof.
  refine (proj1 (X10_boundary_is_the_clamped_calendar_date
                   (leap_world (leap_mtime + 1)) (mkArgs report)
                   one_year_older
                   (pendulum.from_timestamp leap_mtime utc) _ _)).
  - reflexivity.
  - discriminate.
Defined.
